(** * OptionalValue: a shallow embedding of [src/index.ts]

  The TypeScript class [OptionalValue<T>] is a one-field object whose
  methods call back into caller-supplied functions.  The embedding keeps
  three things the source relies on:

  - JavaScript values, with [typeof] and [===] as the language defines them;
  - effects: a callback may change the program state and may throw, and
    whatever it changed before throwing stays changed;
  - object identity: [new] hands out a fresh reference, [return this]
    hands back the old one. *)

From Stdlib Require Import String Ascii ZArith Bool Arith Lia.
From Stdlib Require Import PrimFloat SpecFloat FloatOps FloatAxioms DecimalString.
From ExtLib Require Import Structures.Monad Structures.MonadExc.
Import MonadNotation.

Set Implicit Arguments.
Local Open Scope string_scope.
Local Open Scope monad_scope.

(** ** The fragment of JavaScript the class uses *)

Module JS.

(** Constructors of error objects: the native ones and user subclasses. *)
Inductive ErrorConstructor : Type :=
| Error
| EvalError
| RangeError
| ReferenceError
| SyntaxError
| TypeError
| URIError
| Subclass (name : string).

(** Values.  Numbers are IEEE 754 binary64, as in the language.  Objects
    and functions are references; an error object carries, next to its
    reference, the constructor and the message it was created with (the
    class never assigns to either). *)
Inductive value : Type :=
| VUndefined
| VNull
| VBoolean (b : bool)
| VNumber (x : float)
| VString (s : string)
| VBigInt (z : Z)
| VSymbol (ref : nat)
| VFunction (ref : nat)
| VObject (ref : nat)
| VError (ref : nat) (ctor : ErrorConstructor) (message : string).

(** The [typeof] operator. *)
Definition typeof (v : value) : string :=
  match v with
  | VUndefined => "undefined"
  | VNull => "object"
  | VBoolean _ => "boolean"
  | VNumber _ => "number"
  | VString _ => "string"
  | VBigInt _ => "bigint"
  | VSymbol _ => "symbol"
  | VFunction _ => "function"
  | VObject _ => "object"
  | VError _ _ _ => "object"
  end.

(** The [===] operator: primitives by value (numbers the IEEE way, so NaN
    differs from itself and the two zeros are equal), objects by
    reference. *)
Definition strict_equals (a b : value) : bool :=
  match a, b with
  | VUndefined, VUndefined => true
  | VNull, VNull => true
  | VBoolean x, VBoolean y => Bool.eqb x y
  | VNumber x, VNumber y => PrimFloat.eqb x y
  | VString x, VString y => String.eqb x y
  | VBigInt x, VBigInt y => Z.eqb x y
  | VSymbol r, VSymbol r' => Nat.eqb r r'
  | VFunction r, VFunction r' => Nat.eqb r r'
  | VObject r, VObject r' => Nat.eqb r r'
  | VError r _ _, VError r' _ _ => Nat.eqb r r'
  | _, _ => false
  end.

(** [message] and constructor of a value, when it is an error object. *)
Definition error_message (v : value) : option string :=
  match v with
  | VError _ _ m => Some m
  | _ => None
  end.

Definition error_constructor (v : value) : option ErrorConstructor :=
  match v with
  | VError _ c _ => Some c
  | _ => None
  end.

(** A promise as [Promise.resolve] and [Promise.reject] return it, told by
    what it is at the moment of the return: a new promise already
    fulfilled with a value; a new promise already rejected with a reason; a
    new promise still pending, for which a job is queued that will call
    [then_] on [thenable]; or no new promise at all but the promise that
    was passed in, in whatever state that one is.  The reference of a new
    promise and the queue of jobs play no part here. *)
Inductive Promise : Type :=
| Fulfilled (v : value)
| Rejected (reason : value)
| Pending (thenable then_ : value)
| Given (promise : value).

(** [Promise.reject(reason)] *)
Definition Promise_reject (reason : value) : Promise := Rejected reason.

(** The language's tests IsObject and IsCallable. *)
Definition IsObject (v : value) : bool :=
  match v with
  | VFunction _ | VObject _ | VError _ _ _ => true
  | _ => false
  end.

Definition IsCallable (v : value) : bool :=
  match v with
  | VFunction _ => true
  | _ => false
  end.

(** A statement completes normally with a result or abruptly with a
    thrown value. *)
Inductive completion (A : Type) : Type :=
| Normal (a : A)
| Throw (e : value).

Arguments Normal {A} a.
Arguments Throw {A} e.

Section Effects.

(** Whatever else the program can observe and change: the variables the
    callbacks close over. *)
Context {U : Type}.

(** The program state: the next free object reference and the rest. *)
Record world : Type := World { next_ref : nat; ambient : U }.

(** Computations: run in a world, complete, leave a world behind. *)
Definition M (A : Type) : Type := world -> completion A * world.

Definition M_ret {A} (a : A) : M A := fun w => (Normal a, w).

Definition M_bind {A B} (m : M A) (k : A -> M B) : M B :=
  fun w =>
    match m w with
    | (Normal a, w') => k a w'
    | (Throw e, w') => (Throw e, w')
    end.

(** [throw e] *)
Definition M_throw {A} (e : value) : M A := fun w => (Throw e, w).

(** [try { body } catch (e) { handler }]: the handler runs in the world
    the body left behind. *)
Definition M_catch {A} (body : M A) (handler : value -> M A) : M A :=
  fun w =>
    match body w with
    | (Normal a, w') => (Normal a, w')
    | (Throw e, w') => handler e w'
    end.

#[global] Instance Monad_M : Monad M :=
  {| ret := @M_ret; bind := @M_bind |}.

#[global] Instance MonadExc_M : MonadExc value M :=
  {| raise := @M_throw; catch := @M_catch |}.

(** The world after one object was created in it. *)
Definition allocate (w : world) : world :=
  {| next_ref := S (next_ref w); ambient := ambient w |}.

(** Take the next free reference. *)
Definition fresh : M nat :=
  fun w => (Normal (next_ref w), allocate w).

(** [new ctor(message)] for an error constructor and a string. *)
Definition new_Error (ctor : ErrorConstructor) (message : string) : M value :=
  r <- fresh ;;
  ret (VError r ctor message).

(** What [Promise.resolve] asks of an object, which only the host can
    answer: whether it is a promise (has the internal slots of one);
    whether its [constructor] property is the [Promise] constructor, and
    what its [then] property is.  Reading a property can run a getter, so
    the last two are computations. *)
Record PromiseHost : Type := {
  IsPromise : value -> bool;
  constructor_is_Promise : value -> M bool;
  Get_then : value -> M value
}.

(** The resolve function of a new promise, called on [resolution]: a
    value that is no object fulfils the promise; so does an object whose
    [then] is not callable; reading [then] may throw, which rejects the
    promise; a callable [then] leaves the promise pending, with a job
    queued to call it. *)
Definition resolve_new_promise (host : PromiseHost) (resolution : value)
  : M Promise :=
  if negb (IsObject resolution) then ret (Fulfilled resolution)
  else
    catch
      (then_ <- Get_then host resolution ;;
       if IsCallable then_ then ret (Pending resolution then_)
       else ret (Fulfilled resolution))
      (fun e => ret (Rejected e)).

(** [Promise.resolve(x)]: a promise made by the [Promise] constructor is
    returned as it is; anything else resolves a new promise. *)
Definition Promise_resolve (host : PromiseHost) (x : value) : M Promise :=
  if IsObject x && IsPromise host x then
    same <- constructor_is_Promise host x ;;
    if (same : bool) then ret (Given x)
    else resolve_new_promise host x
  else resolve_new_promise host x.

End Effects.

Arguments world : clear implicits.
Arguments M : clear implicits.
Arguments PromiseHost : clear implicits.

End JS.

Import JS.

(** ** The class *)

(** [class OptionalValue<T> { protected constructor(private value: T) {} }]:
    an instance is its reference and its one field.  No method assigns to
    the field, so the field is carried with the reference. *)
Record OptionalValue : Type := mkOptionalValue { ref : nat; value : JS.value }.

(** *** Static members *)

Module OptionalValue.
Section Static.

Context {U : Type}.

(** [new OptionalValue(value)] *)
Definition new (value : JS.value) : M U OptionalValue :=
  r <- fresh ;;
  ret {| ref := r; value := value |}.

(** [static isPresent<T>(value: T)] *)
Definition isPresent (value : JS.value) : bool :=
  negb (strict_equals value VUndefined) && negb (strict_equals value VNull).

(** [static empty()] *)
Definition empty : M U OptionalValue :=
  new VNull.

(** [static of<T>(value: T)]; [of] is a keyword here, hence the underscore. *)
Definition of_ (value : JS.value) : M U OptionalValue :=
  if isPresent value then new value
  else empty.

End Static.
End OptionalValue.

(** [export const Optional = OptionalValue.of as OptionalFunction;
     Optional.empty = OptionalValue.empty;] *)
Definition Optional {U : Type} : JS.value -> M U OptionalValue :=
  OptionalValue.of_.

Definition Optional_empty {U : Type} : M U OptionalValue :=
  OptionalValue.empty.

(** *** Instance members *)

Section Methods.

Context {U : Type}.

(** The argument [messageOrErrorSupplier?: string | (() => E)]: left out,
    a string, or a function. *)
Inductive MessageOrErrorSupplier : Type :=
| Omitted
| Message (s : string)
| ErrorSupplier (f : M U JS.value).

(** What [!messageOrErrorSupplier] negates: [undefined] and the empty
    string convert to [false], every other string and every function to
    [true]. *)
Definition ToBoolean (a : MessageOrErrorSupplier) : bool :=
  match a with
  | Omitted => false
  | Message EmptyString => false
  | Message (String _ _) => true
  | ErrorSupplier _ => true
  end.

(** [private parseError<E extends Error>(messageOrErrorSupplier?)].  It does
    not read [this].  The last statement calls the argument; were the
    argument [undefined] there, the call itself would throw a [TypeError]. *)
Definition parseError (messageOrErrorSupplier : MessageOrErrorSupplier)
  : M U JS.value :=
  if negb (ToBoolean messageOrErrorSupplier) then
    new_Error Error "Value not present."
  else
    match messageOrErrorSupplier with
    | Message s => new_Error Error s
    | ErrorSupplier f => f
    | Omitted =>
        e <- new_Error TypeError "messageOrErrorSupplier is not a function" ;;
        raise e
    end.

(** [public get(): T] *)
Definition get (this : OptionalValue) : JS.value :=
  value this.

(** [public isPresent()] *)
Definition isPresent (this : OptionalValue) : bool :=
  OptionalValue.isPresent (value this).

(** [public ifPresent(consumer)] *)
Definition ifPresent (this : OptionalValue) (consumer : JS.value -> M U unit)
  : M U OptionalValue :=
  (if isPresent this then consumer (value this) else ret tt) ;;
  ret this.

(** [public isEmpty()] *)
Definition isEmpty (this : OptionalValue) : bool :=
  negb (OptionalValue.isPresent (value this)).

(** [public ifEmpty(consumer)] *)
Definition ifEmpty (this : OptionalValue) (consumer : M U unit)
  : M U OptionalValue :=
  (if isEmpty this then consumer else ret tt) ;;
  ret this.

(** [public filter(predicate)] *)
Definition filter (this : OptionalValue) (predicate : JS.value -> M U bool)
  : M U OptionalValue :=
  if isEmpty this then ret this
  else
    keep <- predicate (value this) ;;
    if (keep : bool) then ret this
    else OptionalValue.empty.

(** [public map(mapper)] *)
Definition map (this : OptionalValue) (mapper : JS.value -> M U JS.value)
  : M U OptionalValue :=
  if isEmpty this then ret this
  else
    mapped <- mapper (value this) ;;
    if OptionalValue.isPresent mapped then OptionalValue.of_ mapped
    else OptionalValue.empty.

(** [public flatMap(mapper)] *)
Definition flatMap (this : OptionalValue)
  (mapper : JS.value -> M U OptionalValue) : M U OptionalValue :=
  if isEmpty this then ret this
  else mapper (value this).

(** [public orElse(other)] *)
Definition orElse (this : OptionalValue) (other : JS.value) : JS.value :=
  if isPresent this then value this
  else other.

(** [public orElseGet(other)] *)
Definition orElseGet (this : OptionalValue) (other : M U JS.value)
  : M U JS.value :=
  if isPresent this then ret (value this)
  else other.

(** [public orElseThrow(messageOrErrorSupplier?)] *)
Definition orElseThrow (this : OptionalValue)
  (messageOrErrorSupplier : MessageOrErrorSupplier) : M U JS.value :=
  if isPresent this then ret (value this)
  else
    e <- parseError messageOrErrorSupplier ;;
    raise e.

(** [public equals(other, comparator?)] *)
Definition equals (this other : OptionalValue)
  (comparator : option (JS.value -> JS.value -> M U bool)) : M U bool :=
  if isEmpty this && isEmpty other then ret true
  else if isEmpty this || isEmpty other then ret false
  else
    match comparator with
    | Some compare => compare (value this) (value other)
    | None => ret (strict_equals (value this) (value other))
    end.

(** [public contains(value)] *)
Definition contains (this : OptionalValue) (v : JS.value) : bool :=
  isPresent this && strict_equals (value this) v.

(** [public toPromise(messageOrErrorSupplier?)], with the host that
    [Promise.resolve] consults. *)
Definition toPromise (host : PromiseHost U) (this : OptionalValue)
  (messageOrErrorSupplier : MessageOrErrorSupplier) : M U Promise :=
  if isPresent this then Promise_resolve host (value this)
  else
    e <- parseError messageOrErrorSupplier ;;
    ret (Promise_reject e).

(** Two conversions belong to the language, not to the class, and both can
    run code of the value's own (a [toJSON], a [toString]): they come in as
    parameters.  [JSON.stringify] gives a string or [undefined];
    interpolating into a template literal gives a string. *)
Variable JSON_stringify : JS.value -> M U (option string).
Variable ToString : JS.value -> M U string.

(** What a template literal makes of the result of [JSON.stringify]. *)
Definition interpolate (json : option string) : string :=
  match json with
  | Some s => s
  | None => "undefined"
  end.

(** [public toString()] *)
Definition toString (this : OptionalValue) : M U string :=
  if isPresent this then
    let value := value this in
    if (typeof value =? "object") || (typeof value =? "string") then
      catch
        (json <- JSON_stringify value ;;
         ret ("Optional.Present<" ++ interpolate json ++ ">"))
        (fun _ =>
           s <- ToString value ;;
           ret ("Optional.Present<" ++ s ++ ">"))
    else
      s <- ToString value ;;
      ret ("Optional.Present<" ++ s ++ ">")
  else ret "Optional.Empty".

End Methods.

(** ** Vocabulary of the specification *)

(** The two absence markers of the specification: [undefined] and [null]. *)
Definition absence_marker (v : JS.value) : bool :=
  match v with
  | VUndefined | VNull => true
  | _ => false
  end.

(** The double quote character, as a string. *)
Definition double_quote : string := String (ascii_of_nat 34) EmptyString.

(** *** Counting calls

    With a counter as the ambient state, a callback can record that it was
    called, which is how the tests of such a class check that a callback
    was left alone. *)

Definition calls (w : world nat) : nat := ambient w.

Definition called : M nat unit :=
  fun w => (Normal tt, {| next_ref := next_ref w; ambient := S (ambient w) |}).

(** [(value) => { calls++; return f(value); }] *)
Definition counting {A : Type} (f : JS.value -> A) : JS.value -> M nat A :=
  fun v => called ;; ret (f v).

(** [() => { calls++; return a; }] *)
Definition counting_supplier {A : Type} (a : A) : M nat A :=
  called ;; ret a.

(** *** A sample host

    The conversions the class borrows from the language, written out on the
    values that have no code of their own: [undefined], [null], booleans,
    strings, BigInts, symbols, plain error objects, and the numbers that
    are integers below 2^53 in magnitude, NaN or infinite.  On these it
    answers as the language does.  Its objects are a sample too, told apart
    by their reference modulo 4: the value [VObject r] is [{}] at 0; a
    promise made by [Promise.reject(...)] at 2; [const o = {}; o.self = o],
    which [JSON.stringify] refuses, at 1; and the same with a method,
    [const o = { then(resolve) { resolve(null); } }; o.self = o], at 3.
    Anything else (a number with a fraction, a function) it refuses with a
    [Subclass "Unsupported"] error, which marks the edge of the sample. *)

Module SampleHost.
Section Host.

Context {U : Type}.

Definition decimal (z : Z) : string :=
  NilZero.string_of_int (Z.to_int z).

(** The integer a number is, if it is one. *)
Definition to_integer (x : float) : option Z :=
  match Prim2SF x with
  | S754_zero _ => Some 0%Z
  | S754_finite negative m e =>
      let magnitude :=
        if (0 <=? e)%Z then Some (Z.pos m * 2 ^ e)%Z
        else if (Z.pos m mod 2 ^ (- e) =? 0)%Z then Some (Z.pos m / 2 ^ (- e))%Z
        else None in
      match magnitude with
      | Some n => Some (if negative then (- n)%Z else n)
      | None => None
      end
  | _ => None
  end.

(** The sample heap: which objects contain themselves. *)
Definition contains_itself (r : nat) : bool := Nat.odd r.

(** The sample heap: which objects are promises, which have a method
    [then]. *)
Definition is_promise (r : nat) : bool := (r mod 4 =? 2)%nat.
Definition has_then_method (r : nat) : bool := (r mod 4 =? 3)%nat.

(** What [Promise.resolve] learns of the sample's values.  A promise has
    the [Promise] constructor and inherits [Promise.prototype.then], here
    the function at reference 0; the method of [VObject r] is the function
    at the reference after it; nothing else has a [then]. *)
Definition promises : PromiseHost U :=
  {| IsPromise := fun v =>
       match v with
       | VObject r => is_promise r
       | _ => false
       end;
     constructor_is_Promise := fun v =>
       match v with
       | VObject r => ret (is_promise r)
       | _ => ret false
       end;
     Get_then := fun v =>
       match v with
       | VObject r =>
           if is_promise r then ret (VFunction 0)
           else if has_then_method r then ret (VFunction (S r))
           else ret VUndefined
       | _ => ret VUndefined
       end |}.

Definition unsupported {A : Type} : M U A :=
  e <- new_Error (Subclass "Unsupported") "outside the sample host" ;;
  raise e.

(** [Number.prototype.toString] on the sample's numbers. *)
Definition Number_toString (x : float) : M U string :=
  match Prim2SF x with
  | S754_nan => ret "NaN"
  | S754_infinity false => ret "Infinity"
  | S754_infinity true => ret "-Infinity"
  | _ =>
      match to_integer x with
      | Some n =>
          if (Z.abs n <? 2 ^ 53)%Z then ret (decimal n) else unsupported
      | None => unsupported
      end
  end.

Definition constructor_name (c : ErrorConstructor) : string :=
  match c with
  | Error => "Error"
  | EvalError => "EvalError"
  | RangeError => "RangeError"
  | ReferenceError => "ReferenceError"
  | SyntaxError => "SyntaxError"
  | TypeError => "TypeError"
  | URIError => "URIError"
  | Subclass name => name
  end.

(** The conversion a template literal applies. *)
Definition ToString (v : JS.value) : M U string :=
  match v with
  | VUndefined => ret "undefined"
  | VNull => ret "null"
  | VBoolean true => ret "true"
  | VBoolean false => ret "false"
  | VNumber x => Number_toString x
  | VString s => ret s
  | VBigInt z => ret (decimal z)
  | VSymbol _ =>
      e <- new_Error TypeError "Cannot convert a Symbol value to a string" ;;
      raise e
  | VError _ c EmptyString => ret (constructor_name c)
  | VError _ c m => ret (constructor_name c ++ ": " ++ m)
  | VObject r =>
      if is_promise r then ret "[object Promise]" else ret "[object Object]"
  | VFunction _ => unsupported
  end.

Definition hex_digit (n : nat) : ascii :=
  ascii_of_nat (if (n <? 10)%nat then 48 + n else 87 + n).

(** One character inside a JSON string literal. *)
Definition quote_char (c : ascii) : string :=
  let n := nat_of_ascii c in
  if (n =? 34)%nat then "\" ++ String c EmptyString
  else if (n =? 92)%nat then "\" ++ String c EmptyString
  else if (n =? 8)%nat then "\b"
  else if (n =? 9)%nat then "\t"
  else if (n =? 10)%nat then "\n"
  else if (n =? 12)%nat then "\f"
  else if (n =? 13)%nat then "\r"
  else if (n <? 32)%nat then
    "\u00" ++ String (hex_digit (n / 16)) (String (hex_digit (n mod 16)) EmptyString)
  else String c EmptyString.

Fixpoint quote_chars (s : string) : string :=
  match s with
  | EmptyString => EmptyString
  | String c rest => quote_char c ++ quote_chars rest
  end.

(** A string between two double quotes. *)
Definition QuoteJSONString (s : string) : string :=
  double_quote ++ quote_chars s ++ double_quote.

(** [JSON.stringify] with one argument. *)
Definition JSON_stringify (v : JS.value) : M U (option string) :=
  match v with
  | VUndefined | VFunction _ | VSymbol _ => ret None
  | VNull => ret (Some "null")
  | VBoolean true => ret (Some "true")
  | VBoolean false => ret (Some "false")
  | VNumber x =>
      match Prim2SF x with
      | S754_nan | S754_infinity _ => ret (Some "null")
      | _ => s <- Number_toString x ;; ret (Some s)
      end
  | VString s => ret (Some (QuoteJSONString s))
  | VBigInt _ =>
      e <- new_Error TypeError "Do not know how to serialize a BigInt" ;;
      raise e
  | VError _ _ _ => ret (Some "{}")
  | VObject r =>
      if contains_itself r then
        e <- new_Error TypeError "Converting circular structure to JSON" ;;
        raise e
      else ret (Some "{}")
  end.

End Host.
End SampleHost.

(** *** Sample data

    The containers and callbacks of the project's own tests, on which the
    theorems below are tried. *)

(** [Optional(123)] and [Optional.empty()], each the first object of its
    world. *)
Definition present_123 : OptionalValue := {| ref := 0; value := VNumber 123 |}.
Definition empty_0 : OptionalValue := {| ref := 0; value := VNull |}.

(** [Optional("123")] *)
Definition present_string_123 : OptionalValue :=
  {| ref := 0; value := VString "123" |}.

(** [Optional(456)], the second object of its world. *)
Definition present_456 : OptionalValue := {| ref := 1; value := VNumber 456 |}.

(** A container around the object at reference [r]. *)
Definition holding_object (at_ref r : nat) : OptionalValue :=
  {| ref := at_ref; value := VObject r |}.

(** A world with one object in it and no call counted. *)
Definition start : world nat := {| next_ref := 1; ambient := 0 |}.

(** [(value) => value > 0] and [(value) => value < 0] *)
Definition greater_than_zero (v : JS.value) : bool :=
  match v with
  | VNumber x => PrimFloat.ltb 0 x
  | _ => false
  end.

Definition less_than_zero (v : JS.value) : bool :=
  match v with
  | VNumber x => PrimFloat.ltb x 0
  | _ => false
  end.

(** [(value) => typeof value] and [(value) => undefined] *)
Definition type_of (v : JS.value) : JS.value := VString (typeof v).
Definition nothing (v : JS.value) : JS.value := VUndefined.

(** [(a, b) => typeof a === typeof b] *)
Definition same_type {U : Type} (a b : JS.value) : M U bool :=
  ret (typeof a =? typeof b).

(** [() => TypeError("Expected type.")] *)
Definition expected_type {U : Type} : M U JS.value :=
  new_Error TypeError "Expected type.".

(** *** Callbacks built from callbacks

    The ways a caller chains the methods, as the arrow functions a caller
    would write. *)

(** [(value) => first(value) && second(value)] *)
Definition both {U : Type} (first second : JS.value -> M U bool)
  : JS.value -> M U bool :=
  fun v =>
    keep <- first v ;;
    if (keep : bool) then second v else ret false.

(** [(value) => Optional(mapper(value))] *)
Definition wrapping {U : Type} (mapper : JS.value -> M U JS.value)
  : JS.value -> M U OptionalValue :=
  fun v =>
    mapped <- mapper v ;;
    Optional mapped.

(** [(value) => mapper(value).flatMap(next)] *)
Definition and_then {U : Type} (mapper next : JS.value -> M U OptionalValue)
  : JS.value -> M U OptionalValue :=
  fun v =>
    r <- mapper v ;;
    flatMap r next.

(** [(value) => { if (value == null) throw new TypeError("No value."); return f(value); }] *)
Definition refusing_markers {U A : Type} (f : JS.value -> M U A)
  : JS.value -> M U A :=
  fun v =>
    if absence_marker v then
      e <- new_Error TypeError "No value." ;;
      raise e
    else f v.

(** Whether a value is the number NaN. *)
Definition is_NaN (v : JS.value) : bool :=
  match v with
  | VNumber x => PrimFloat.is_nan x
  | _ => false
  end.

(** [() => { throw new RangeError("Stop."); }] as a consumer. *)
Definition stopping {U : Type} : M U unit :=
  e <- new_Error RangeError "Stop." ;;
  raise e.

(** ** How the pieces run *)

Section Runs.

Context {U : Type}.

Implicit Types (w : world U) (v : JS.value) (c this : OptionalValue).

Lemma bind_normal {A B : Type} (m : M U A) (k : A -> M U B) w a w' :
  m w = (Normal a, w') -> (x <- m ;; k x) w = k a w'.
Proof. intros H. cbn. unfold M_bind. rewrite H. reflexivity. Qed.

Lemma bind_throw {A B : Type} (m : M U A) (k : A -> M U B) w e w' :
  m w = (Throw e, w') -> (x <- m ;; k x) w = (Throw e, w').
Proof. intros H. cbn. unfold M_bind. rewrite H. reflexivity. Qed.

Lemma static_isPresent_marker v :
  OptionalValue.isPresent v = negb (absence_marker v).
Proof. destruct v; reflexivity. Qed.

Lemma isPresent_marker c : isPresent c = negb (absence_marker (get c)).
Proof. apply static_isPresent_marker. Qed.

Lemma isEmpty_marker c : isEmpty c = absence_marker (get c).
Proof.
  unfold isEmpty. rewrite static_isPresent_marker. apply negb_involutive.
Qed.

Lemma isEmpty_isPresent c : isEmpty c = negb (isPresent c).
Proof. reflexivity. Qed.

Lemma present_not_empty c : isPresent c = true -> isEmpty c = false.
Proof. rewrite isEmpty_isPresent. intros ->. reflexivity. Qed.

Lemma empty_not_present c : isEmpty c = true -> isPresent c = false.
Proof. rewrite isEmpty_isPresent. destruct (isPresent c); [discriminate | reflexivity]. Qed.

Lemma new_run v w :
  OptionalValue.new v w = (Normal {| ref := next_ref w; value := v |}, allocate w).
Proof. reflexivity. Qed.

Lemma empty_run w :
  OptionalValue.empty w
  = (Normal {| ref := next_ref w; value := VNull |}, allocate w).
Proof. reflexivity. Qed.

Lemma of_run_value v w :
  absence_marker v = false ->
  OptionalValue.of_ v w = (Normal {| ref := next_ref w; value := v |}, allocate w).
Proof.
  intros H. unfold OptionalValue.of_.
  rewrite static_isPresent_marker, H. reflexivity.
Qed.

Lemma of_run_marker v w :
  absence_marker v = true ->
  OptionalValue.of_ v w
  = (Normal {| ref := next_ref w; value := VNull |}, allocate w).
Proof.
  intros H. unfold OptionalValue.of_.
  rewrite static_isPresent_marker, H. reflexivity.
Qed.

Lemma new_Error_run ctor message w :
  new_Error ctor message w = (Normal (VError (next_ref w) ctor message), allocate w).
Proof. reflexivity. Qed.

Lemma equals_both_empty a b comparator w :
  isEmpty a = true -> isEmpty b = true ->
  equals a b comparator w = (Normal true, w).
Proof. intros Ha Hb. unfold equals. rewrite Ha, Hb. reflexivity. Qed.

End Runs.

(** Two steps recur in every proof below: a method's test on [this] is
    settled by what is known of [this], and a bind moves on once its left
    side is known to return. *)
Ltac branch H :=
  first [ rewrite (present_not_empty _ H)
        | rewrite (empty_not_present _ H)
        | rewrite H ].

Tactic Notation "returns" uconstr(H) :=
  erewrite bind_normal by (first [exact H | apply H]).

(** ** The claims *)

(** C4. For every value [v] that is neither absence marker, [of(v)] returns
    a container that is present and whose [get()] is [v].  For absence
    markers [m1] and [m2], whichever of the two each one is, [of(m1)] and
    [of(m2)] are empty, and [equals] answers [true] between them, in both
    directions, and between each of them and [empty()]. *)
Theorem of_present_or_empty (U : Type) :
  (forall (v : JS.value) (w : world U),
      absence_marker v = false ->
      exists c w',
        OptionalValue.of_ v w = (Normal c, w')
        /\ isPresent c = true /\ get c = v)
  /\
  (forall (m1 m2 : JS.value) (w : world U),
      absence_marker m1 = true -> absence_marker m2 = true ->
      exists c1 c2 e w',
        (c1 <- OptionalValue.of_ m1 ;;
         c2 <- OptionalValue.of_ m2 ;;
         e <- OptionalValue.empty ;;
         ret (c1, c2, e)) w = (Normal (c1, c2, e), w')
        /\ isEmpty c1 = true /\ isEmpty c2 = true
        /\ forall w0 : world U,
             equals c1 c2 None w0 = (Normal true, w0)
             /\ equals c2 c1 None w0 = (Normal true, w0)
             /\ equals c1 e None w0 = (Normal true, w0)
             /\ equals c2 e None w0 = (Normal true, w0)).
Proof.
  split.
  - intros v w Hv.
    exists {| ref := next_ref w; value := v |}, (allocate w).
    split; [apply of_run_value; exact Hv |].
    split; [| reflexivity].
    rewrite isPresent_marker. cbn. rewrite Hv. reflexivity.
  - intros m1 m2 w H1 H2.
    eexists _, _, _, _. split.
    + erewrite bind_normal by (apply of_run_marker; exact H1).
      erewrite bind_normal by (apply of_run_marker; exact H2).
      returns empty_run.
      reflexivity.
    + split; [reflexivity |]. split; [reflexivity |].
      intros w0. repeat split; apply equals_both_empty; reflexivity.
Qed.

Lemma of_present_or_empty_witness :
  (exists c w',
      OptionalValue.of_ (VNumber 123) (World 0 tt) = (Normal c, w')
      /\ isPresent c = true /\ get c = VNumber 123)
  /\
  (exists c1 c2 e w',
      (c1 <- OptionalValue.of_ VNull ;;
       c2 <- OptionalValue.of_ VUndefined ;;
       e <- OptionalValue.empty ;;
       ret (c1, c2, e)) (World 0 tt) = (Normal (c1, c2, e), w')
      /\ isEmpty c1 = true /\ isEmpty c2 = true
      /\ forall w0 : world unit,
           equals c1 c2 None w0 = (Normal true, w0)
           /\ equals c2 c1 None w0 = (Normal true, w0)
           /\ equals c1 e None w0 = (Normal true, w0)
           /\ equals c2 e None w0 = (Normal true, w0)).
Proof.
  split.
  - apply (proj1 (of_present_or_empty unit)). reflexivity.
  - apply (proj2 (of_present_or_empty unit)); reflexivity.
Defined.

(** C10. An empty container stores [null], never [undefined]:
    [empty().get()] is [null]; [of(undefined).get()] is [null]; a container
    that [of] returns and that is empty has [null]; [filter] with a
    predicate that answers [false], and [map] with a mapper that answers an
    absence marker, return a container that is empty and has [null]; and
    [filter] and [map] never return a container storing [undefined] unless
    they were called on one. *)
Theorem empty_stores_null (U : Type) :
  (forall w : world U,
      exists c w', OptionalValue.empty w = (Normal c, w') /\ get c = VNull)
  /\
  (forall w : world U,
      exists c w', OptionalValue.of_ VUndefined w = (Normal c, w') /\ get c = VNull)
  /\
  (forall (v : JS.value) (w : world U),
      exists c w',
        OptionalValue.of_ v w = (Normal c, w')
        /\ get c <> VUndefined /\ (isEmpty c = true -> get c = VNull))
  /\
  (forall (this : OptionalValue) (predicate : JS.value -> M U bool) (w w1 : world U),
      isPresent this = true ->
      predicate (get this) w = (Normal false, w1) ->
      exists r w2,
        filter this predicate w = (Normal r, w2)
        /\ isEmpty r = true /\ get r = VNull)
  /\
  (forall (this : OptionalValue) (mapper : JS.value -> M U JS.value)
          (u : JS.value) (w w1 : world U),
      isPresent this = true ->
      mapper (get this) w = (Normal u, w1) ->
      absence_marker u = true ->
      exists r w2,
        map this mapper w = (Normal r, w2)
        /\ isEmpty r = true /\ get r = VNull)
  /\
  (forall (this r : OptionalValue) (predicate : JS.value -> M U bool) (w w' : world U),
      get this <> VUndefined ->
      filter this predicate w = (Normal r, w') ->
      get r <> VUndefined)
  /\
  (forall (this r : OptionalValue) (mapper : JS.value -> M U JS.value) (w w' : world U),
      get this <> VUndefined ->
      map this mapper w = (Normal r, w') ->
      get r <> VUndefined).
Proof.
  split; [| split; [| split; [| split; [| split; [| split]]]]].
  - intros w. eexists _, _. split; [apply empty_run | reflexivity].
  - intros w. eexists _, _. split; [apply of_run_marker; reflexivity | reflexivity].
  - intros v w. destruct (absence_marker v) eqn:Hv.
    + eexists _, _. split; [apply of_run_marker; exact Hv |].
      split; [discriminate | reflexivity].
    + eexists _, _. split; [apply of_run_value; exact Hv |].
      split.
      * cbn. intros ->. discriminate.
      * rewrite isEmpty_marker. cbn. rewrite Hv. discriminate.
  - intros this predicate w w1 Hp Hk.
    eexists _, _. split.
    + unfold filter. branch Hp.
      returns Hk. apply empty_run.
    + split; reflexivity.
  - intros this mapper u w w1 Hp Hm Hu.
    eexists _, _. split.
    + unfold map. branch Hp.
      returns Hm.
      rewrite static_isPresent_marker, Hu. apply empty_run.
    + split; reflexivity.
  - intros this r predicate w w' Hthis. unfold filter.
    destruct (isEmpty this).
    + intros [= <- _]. exact Hthis.
    + cbn. unfold M_bind. destruct (predicate (value this) w) as [[[|]|e] w1].
      * intros [= <- _]. exact Hthis.
      * intros [= <- _]. discriminate.
      * discriminate.
  - intros this r mapper w w' Hthis. unfold map.
    destruct (isEmpty this).
    + intros [= <- _]. exact Hthis.
    + cbn. unfold M_bind. destruct (mapper (value this) w) as [[u|e] w1].
      * destruct (OptionalValue.isPresent u) eqn:Hu.
        -- rewrite static_isPresent_marker in Hu.
           rewrite of_run_value by (destruct (absence_marker u); [discriminate | reflexivity]).
           intros [= <- _]. cbn. intros ->. discriminate.
        -- intros [= <- _]. discriminate.
      * discriminate.
Qed.

Lemma empty_stores_null_witness :
  (exists r w2,
      filter present_123 (counting less_than_zero) start = (Normal r, w2)
      /\ isEmpty r = true /\ get r = VNull)
  /\
  (exists r w2,
      map present_123 (counting nothing) start = (Normal r, w2)
      /\ isEmpty r = true /\ get r = VNull)
  /\
  get empty_0 <> VUndefined.
Proof.
  pose proof (empty_stores_null nat) as (_ & _ & _ & Hfilter & Hmap & Hkeep & _).
  split; [| split].
  - apply (Hfilter present_123 (counting less_than_zero) start
             {| next_ref := 1; ambient := 1 |}); reflexivity.
  - apply (Hmap present_123 (counting nothing) VUndefined start
             {| next_ref := 1; ambient := 1 |}); reflexivity.
  - apply (Hkeep empty_0 empty_0 (counting greater_than_zero) start start).
    + discriminate.
    + reflexivity.
Defined.

(** C5. [map] on a present container holding [v]: when [mapper(v)] is not
    an absence marker the result is present and holds [mapper(v)]; when it
    is one the result is empty; either way the result never holds an
    absence marker other than the [null] of an empty container.  [map] on
    an empty container returns that container, and nothing of the mapper
    runs: the world is as it was, whatever the mapper would have done. *)
Theorem map_present_or_empty (U : Type) (this : OptionalValue)
  (mapper : JS.value -> M U JS.value) (w : world U) :
  (isPresent this = true ->
   forall (u : JS.value) (w1 : world U),
     mapper (get this) w = (Normal u, w1) ->
     (absence_marker u = false ->
      exists r w2,
        map this mapper w = (Normal r, w2)
        /\ isPresent r = true /\ get r = u)
     /\
     (absence_marker u = true ->
      exists r w2,
        map this mapper w = (Normal r, w2)
        /\ isEmpty r = true /\ get r = VNull))
  /\
  (isPresent this = true ->
   forall (r : OptionalValue) (w2 : world U),
     map this mapper w = (Normal r, w2) ->
     absence_marker (get r) = true -> isEmpty r = true /\ get r = VNull)
  /\
  (isEmpty this = true -> map this mapper w = (Normal this, w)).
Proof.
  split; [| split].
  - intros Hp u w1 Hm. split; intros Hu.
    + eexists _, _. split.
      * unfold map. branch Hp.
        returns Hm.
        rewrite static_isPresent_marker, Hu. apply of_run_value. exact Hu.
      * split; [| reflexivity].
        rewrite isPresent_marker. cbn. rewrite Hu. reflexivity.
    + eexists _, _. split.
      * unfold map. branch Hp.
        returns Hm.
        rewrite static_isPresent_marker, Hu. apply empty_run.
      * split; reflexivity.
  - intros Hp r w2. unfold map. branch Hp.
    cbn. unfold M_bind. destruct (mapper (value this) w) as [[u|e] w1]; [| discriminate].
    rewrite static_isPresent_marker.
    destruct (absence_marker u) eqn:Hu; cbn.
    + intros [= <- _] _. split; reflexivity.
    + rewrite of_run_value by exact Hu. intros [= <- _]. cbn.
      rewrite Hu. discriminate.
  - intros He. unfold map. rewrite He. reflexivity.
Qed.

Lemma map_present_or_empty_witness :
  (exists r w2,
      map present_123 (counting type_of) start = (Normal r, w2)
      /\ isPresent r = true /\ get r = VString "number")
  /\
  (exists r w2,
      map present_123 (counting nothing) start = (Normal r, w2)
      /\ isEmpty r = true /\ get r = VNull)
  /\
  map empty_0 (counting type_of) start = (Normal empty_0, start)
  /\
  calls start = 0.
Proof.
  split; [| split; [| split]].
  - apply (proj1 (map_present_or_empty present_123 (counting type_of) start)
             eq_refl (VString "number") {| next_ref := 1; ambient := 1 |} eq_refl).
    reflexivity.
  - apply (proj1 (map_present_or_empty present_123 (counting nothing) start)
             eq_refl VUndefined {| next_ref := 1; ambient := 1 |} eq_refl).
    reflexivity.
  - apply (proj2 (proj2 (map_present_or_empty empty_0 (counting type_of) start))).
    reflexivity.
  - reflexivity.
Defined.

(** C6. [filter] on a present container: when the predicate answers [true]
    on the value the result is the container itself (same reference, same
    value); when it answers [false] the result is an empty container.
    [filter] on an empty container returns that container, and nothing of
    the predicate runs: the world is as it was. *)
Theorem filter_keeps_or_empties (U : Type) (this : OptionalValue)
  (predicate : JS.value -> M U bool) (w : world U) :
  (isPresent this = true ->
   forall w1 : world U,
     predicate (get this) w = (Normal true, w1) ->
     filter this predicate w = (Normal this, w1))
  /\
  (isPresent this = true ->
   forall w1 : world U,
     predicate (get this) w = (Normal false, w1) ->
     exists r w2,
       filter this predicate w = (Normal r, w2) /\ isEmpty r = true)
  /\
  (isEmpty this = true -> filter this predicate w = (Normal this, w)).
Proof.
  split; [| split].
  - intros Hp w1 Hk. unfold filter. branch Hp.
    returns Hk. reflexivity.
  - intros Hp w1 Hk. eexists _, _. split.
    + unfold filter. branch Hp.
      returns Hk. apply empty_run.
    + reflexivity.
  - intros He. unfold filter. rewrite He. reflexivity.
Qed.

Lemma filter_keeps_or_empties_witness :
  filter present_123 (counting greater_than_zero) start
  = (Normal present_123, {| next_ref := 1; ambient := 1 |})
  /\
  (exists r w2,
      filter present_123 (counting less_than_zero) start = (Normal r, w2)
      /\ isEmpty r = true)
  /\
  filter empty_0 (counting greater_than_zero) start = (Normal empty_0, start)
  /\
  calls start = 0.
Proof.
  split; [| split; [| split]].
  - apply (proj1 (filter_keeps_or_empties present_123 (counting greater_than_zero) start));
      reflexivity.
  - apply (proj1 (proj2 (filter_keeps_or_empties present_123 (counting less_than_zero) start))
             eq_refl {| next_ref := 1; ambient := 1 |}).
    reflexivity.
  - apply (proj2 (proj2 (filter_keeps_or_empties empty_0 (counting greater_than_zero) start))).
    reflexivity.
  - reflexivity.
Defined.

(** C7. [equals]: both empty, [true]; one empty and the other present,
    [false]; both present, what the comparator answers on the two values
    when one is given, and otherwise whether the two values are [===].  When
    either container is empty the comparator does not run. *)
Theorem equals_by_cases (U : Type) (this other : OptionalValue)
  (comparator : option (JS.value -> JS.value -> M U bool)) (w : world U) :
  (isEmpty this = true -> isEmpty other = true ->
   equals this other comparator w = (Normal true, w))
  /\
  (isEmpty this = true -> isPresent other = true ->
   equals this other comparator w = (Normal false, w))
  /\
  (isPresent this = true -> isEmpty other = true ->
   equals this other comparator w = (Normal false, w))
  /\
  (isPresent this = true -> isPresent other = true ->
   forall compare : JS.value -> JS.value -> M U bool,
     comparator = Some compare ->
     equals this other comparator w = compare (get this) (get other) w)
  /\
  (isPresent this = true -> isPresent other = true ->
   comparator = None ->
   equals this other comparator w
   = (Normal (strict_equals (get this) (get other)), w)).
Proof.
  split; [| split; [| split; [| split]]].
  - apply equals_both_empty.
  - intros Ha Hb. unfold equals.
    rewrite Ha, (present_not_empty _ Hb). reflexivity.
  - intros Ha Hb. unfold equals.
    rewrite Hb, (present_not_empty _ Ha). reflexivity.
  - intros Ha Hb compare ->. unfold equals.
    rewrite (present_not_empty _ Ha), (present_not_empty _ Hb). reflexivity.
  - intros Ha Hb ->. unfold equals.
    rewrite (present_not_empty _ Ha), (present_not_empty _ Hb). reflexivity.
Qed.

Lemma equals_by_cases_witness :
  equals empty_0 empty_0 None start = (Normal true, start)
  /\ equals empty_0 present_123 None start = (Normal false, start)
  /\ equals present_123 empty_0 None start = (Normal false, start)
  /\ equals present_123 present_456 (Some same_type) start
     = same_type (VNumber 123) (VNumber 456) start
  /\ equals present_123 present_456 None start
     = (Normal (strict_equals (VNumber 123) (VNumber 456)), start).
Proof.
  split; [| split; [| split; [| split]]].
  - apply (proj1 (equals_by_cases empty_0 empty_0 None start)); reflexivity.
  - apply (proj1 (proj2 (equals_by_cases empty_0 present_123 None start)));
      reflexivity.
  - apply (proj1 (proj2 (proj2 (equals_by_cases present_123 empty_0 None start))));
      reflexivity.
  - apply (proj1 (proj2 (proj2 (proj2
             (equals_by_cases present_123 present_456 (Some same_type) start))))
             eq_refl eq_refl same_type eq_refl).
  - apply (proj2 (proj2 (proj2 (proj2
             (equals_by_cases present_123 present_456 None start)))));
      reflexivity.
Defined.

(** The comparisons of the project's tests, and what [===] means for the
    default one: two objects are equal only when they are one object, and
    NaN is not equal to itself. *)
Example equals_examples :
  fst (equals present_123 present_123 None start) = Normal true
  /\ fst (equals present_123 present_456 None start) = Normal false
  /\ fst (equals present_123 present_456 (Some same_type) start) = Normal true
  /\ fst (equals (holding_object 2 0) (holding_object 3 0) None start) = Normal true
  /\ fst (equals (holding_object 2 0) (holding_object 3 1) None start) = Normal false
  /\ fst (equals {| ref := 0; value := VNumber (0 / 0) |}
               {| ref := 0; value := VNumber (0 / 0) |} None start) = Normal false.
Proof. repeat split. Qed.

(** C8. On a present container [orElse] and [orElseGet] return the
    contained value, and nothing of the supplier runs: the world is as it
    was.  On an empty container [orElse] returns the fallback, and
    [orElseGet] is one run of the supplier: its result, its effects. *)
Theorem orElse_orElseGet_by_cases (U : Type) (this : OptionalValue)
  (fallback : JS.value) (supplier : M U JS.value) (w : world U) :
  (isPresent this = true ->
   orElse this fallback = get this
   /\ orElseGet this supplier w = (Normal (get this), w))
  /\
  (isEmpty this = true ->
   orElse this fallback = fallback
   /\ orElseGet this supplier w = supplier w).
Proof.
  split.
  - intros Hp. unfold orElse, orElseGet. rewrite Hp. split; reflexivity.
  - intros He. unfold orElse, orElseGet.
    branch He. split; reflexivity.
Qed.

Lemma orElse_orElseGet_by_cases_witness :
  (orElse present_123 (VNumber 456) = VNumber 123
   /\ orElseGet present_123 (counting_supplier (VNumber 456)) start
      = (Normal (VNumber 123), start))
  /\
  (orElse empty_0 (VNumber 456) = VNumber 456
   /\ orElseGet empty_0 (counting_supplier (VNumber 456)) start
      = (Normal (VNumber 456), {| next_ref := 1; ambient := 1 |})).
Proof.
  split.
  - apply (proj1 (orElse_orElseGet_by_cases present_123 (VNumber 456)
                    (counting_supplier (VNumber 456)) start)).
    reflexivity.
  - apply (proj2 (orElse_orElseGet_by_cases empty_0 (VNumber 456)
                    (counting_supplier (VNumber 456)) start)).
    reflexivity.
Defined.

(** What [parseError] produces for an argument that is left out, a string,
    or a function. *)
Section ParseError.

Context {U : Type}.

Implicit Types (w : world U) (this : OptionalValue).



Lemma parseError_message (X : string) w :
  X <> EmptyString ->
  parseError (Message X) w = (Normal (VError (next_ref w) Error X), allocate w).
Proof. destruct X; [intros H; contradiction H; reflexivity | reflexivity]. Qed.

Lemma parseError_supplier (supplier : M U JS.value) w :
  parseError (ErrorSupplier supplier) w = supplier w.
Proof. reflexivity. Qed.

Lemma orElseThrow_empty this (arg : MessageOrErrorSupplier) w :
  isEmpty this = true ->
  orElseThrow this arg w = (e <- parseError arg ;; raise e) w.
Proof.
  intros He. unfold orElseThrow. branch He. reflexivity.
Qed.

Lemma toPromise_empty (host : PromiseHost U) this (arg : MessageOrErrorSupplier) w :
  isEmpty this = true ->
  toPromise host this arg w = (e <- parseError arg ;; ret (Promise_reject e)) w.
Proof.
  intros He. unfold toPromise. branch He. reflexivity.
Qed.

End ParseError.

(** C1, as the code has it.  On a present container [orElseThrow] returns
    the contained value and throws nothing, whatever the argument, and
    nothing of a supplier runs.  On an empty container it always throws:
    with no argument, a new [Error] with message "Value not present."; with
    a string [X] that is not empty, a new [Error] with message [X]; with the
    empty string, the same as with no argument; with a function, the very
    value the function returns, constructor and message untouched. *)
Theorem orElseThrow_by_cases (U : Type) (this : OptionalValue) (w : world U) :
  (isPresent this = true ->
   forall arg : MessageOrErrorSupplier,
     orElseThrow this arg w = (Normal (get this), w))
  /\
  (isEmpty this = true ->
   orElseThrow this Omitted w
   = (Throw (VError (next_ref w) Error "Value not present."), allocate w)
   /\
   (forall X : string,
       X <> EmptyString ->
       orElseThrow this (Message X) w
       = (Throw (VError (next_ref w) Error X), allocate w))
   /\
   orElseThrow this (Message EmptyString) w
   = (Throw (VError (next_ref w) Error "Value not present."), allocate w)
   /\
   (forall (supplier : M U JS.value) (e : JS.value) (w1 : world U),
       supplier w = (Normal e, w1) ->
       orElseThrow this (ErrorSupplier supplier) w = (Throw e, w1))
   /\
   (forall arg : MessageOrErrorSupplier,
       exists e w1, orElseThrow this arg w = (Throw e, w1))).
Proof.
  split.
  - intros Hp arg. unfold orElseThrow. rewrite Hp. reflexivity.
  - intros He. split; [| split; [| split; [| split]]].
    + rewrite (orElseThrow_empty _ _ _ He). reflexivity.
    + intros X HX. rewrite (orElseThrow_empty _ _ _ He).
      erewrite bind_normal by (apply parseError_message; exact HX).
      reflexivity.
    + rewrite (orElseThrow_empty _ _ _ He). reflexivity.
    + intros supplier e w1 Hs. rewrite (orElseThrow_empty _ _ _ He).
      erewrite bind_normal by (rewrite parseError_supplier; exact Hs).
      reflexivity.
    + intros arg. rewrite (orElseThrow_empty _ _ _ He).
      destruct (parseError arg w) as [[e|e] w1] eqn:Hrun.
      * exists e, w1. returns Hrun. reflexivity.
      * exists e, w1. erewrite bind_throw by exact Hrun. reflexivity.
Qed.

Lemma orElseThrow_by_cases_witness :
  orElseThrow present_123 Omitted start = (Normal (VNumber 123), start)
  /\ orElseThrow empty_0 Omitted start
     = (Throw (VError 1 Error "Value not present."), allocate start)
  /\ orElseThrow empty_0 (Message "No value.") start
     = (Throw (VError 1 Error "No value."), allocate start)
  /\ orElseThrow empty_0 (ErrorSupplier expected_type) start
     = (Throw (VError 1 TypeError "Expected type."), allocate start).
Proof.
  pose proof (proj2 (orElseThrow_by_cases empty_0 start) eq_refl)
    as (Homitted & Hmessage & _ & Hsupplier & _).
  split; [| split; [| split]].
  - apply (proj1 (orElseThrow_by_cases present_123 start)). reflexivity.
  - exact Homitted.
  - apply Hmessage. discriminate.
  - apply Hsupplier. reflexivity.
Defined.

(** C1, as the specification words it, fails at the empty string: on an
    empty container [orElseThrow] with the empty string as argument does not throw
    an error whose message is the empty string. *)
Lemma orElseThrow_empty_message_counterexample :
  isEmpty empty_0 = true
  /\ ~ (exists e w1,
          orElseThrow empty_0 (Message EmptyString) start = (Throw e, w1)
          /\ error_message e = Some EmptyString).
Proof.
  split; [reflexivity |].
  intros (e & w1 & Hrun & Hmessage).
  cbv in Hrun. injection Hrun as <- _. discriminate Hmessage.
Qed.

(** C9. On an empty container the empty string is taken for no argument:
    [orElseThrow] throws the default [Error] with message "Value not
    present.", [toPromise] returns a promise rejected with that error, and
    both do exactly what they do when the argument is left out, because
    [parseError] asks whether the argument is falsy, which the empty string
    is. *)
Theorem empty_message_counts_as_omitted (U : Type) (host : PromiseHost U)
  (this : OptionalValue) (w : world U) :
  isEmpty this = true ->
  orElseThrow this (Message EmptyString) w
  = (Throw (VError (next_ref w) Error "Value not present."), allocate w)
  /\ toPromise host this (Message EmptyString) w
     = (Normal (Rejected (VError (next_ref w) Error "Value not present.")),
        allocate w)
  /\ orElseThrow this (Message EmptyString) w = orElseThrow this Omitted w
  /\ toPromise host this (Message EmptyString) w = toPromise host this Omitted w
  /\ parseError (Message EmptyString) w = parseError Omitted w
  /\ ToBoolean (@Message U EmptyString) = false.
Proof.
  intros He.
  rewrite !(orElseThrow_empty _ _ _ He), !(toPromise_empty host _ _ _ He).
  repeat split.
Qed.

Lemma empty_message_counts_as_omitted_witness :
  orElseThrow empty_0 (Message EmptyString) start
  = (Throw (VError 1 Error "Value not present."), allocate start)
  /\ toPromise SampleHost.promises empty_0 (Message EmptyString) start
     = (Normal (Rejected (VError 1 Error "Value not present.")), allocate start)
  /\ orElseThrow empty_0 (Message EmptyString) start = orElseThrow empty_0 Omitted start
  /\ toPromise SampleHost.promises empty_0 (Message EmptyString) start
     = toPromise SampleHost.promises empty_0 Omitted start
  /\ parseError (Message EmptyString) start = parseError Omitted start
  /\ ToBoolean (@Message nat EmptyString) = false.
Proof.
  apply (empty_message_counts_as_omitted SampleHost.promises empty_0 start).
  reflexivity.
Defined.




Section ToString.

Context {U : Type}.

Variable JSON_stringify : JS.value -> M U (option string).
Variable ToString : JS.value -> M U string.

Implicit Types (w : world U) (this : OptionalValue).

Lemma typeof_serialized (v : JS.value) :
  typeof v = "object" \/ typeof v = "string" ->
  (typeof v =? "object") || (typeof v =? "string") = true.
Proof.
  intros [-> | ->]; reflexivity.
Qed.

Lemma typeof_plain (v : JS.value) :
  typeof v <> "object" -> typeof v <> "string" ->
  (typeof v =? "object") || (typeof v =? "string") = false.
Proof.
  intros Ho Hs.
  destruct (String.eqb_spec (typeof v) "object"); [contradiction |].
  destruct (String.eqb_spec (typeof v) "string"); [contradiction |].
  reflexivity.
Qed.

Lemma toString_empty this w :
  isEmpty this = true ->
  toString JSON_stringify ToString this w = (Normal "Optional.Empty", w).
Proof.
  intros He. unfold toString. branch He. reflexivity.
Qed.

Lemma toString_serialized this w (json : option string) w1 :
  isPresent this = true ->
  typeof (get this) = "object" \/ typeof (get this) = "string" ->
  JSON_stringify (get this) w = (Normal json, w1) ->
  toString JSON_stringify ToString this w
  = (Normal ("Optional.Present<" ++ interpolate json ++ ">"), w1).
Proof.
  intros Hp Ht Hj. unfold get in *. unfold toString. rewrite Hp.
  cbv zeta. rewrite (typeof_serialized _ Ht).
  cbn. unfold M_catch, M_bind. rewrite Hj. reflexivity.
Qed.

Lemma toString_fallback this w (x : JS.value) w1 :
  isPresent this = true ->
  typeof (get this) = "object" \/ typeof (get this) = "string" ->
  JSON_stringify (get this) w = (Throw x, w1) ->
  toString JSON_stringify ToString this w
  = (s <- ToString (get this) ;; ret ("Optional.Present<" ++ s ++ ">")) w1.
Proof.
  intros Hp Ht Hj. unfold get in *. unfold toString. rewrite Hp.
  cbv zeta. rewrite (typeof_serialized _ Ht).
  cbn. unfold M_catch, M_bind. rewrite Hj. reflexivity.
Qed.

Lemma toString_plain this w :
  isPresent this = true ->
  typeof (get this) <> "object" -> typeof (get this) <> "string" ->
  toString JSON_stringify ToString this w
  = (s <- ToString (get this) ;; ret ("Optional.Present<" ++ s ++ ">")) w.
Proof.
  intros Hp Ho Hs. unfold get in *. unfold toString. rewrite Hp.
  cbv zeta. rewrite (typeof_plain _ Ho Hs). reflexivity.
Qed.

End ToString.

(** C3, as the code has it.  [toString] of an empty container is the
    literal "Optional.Empty".  Of a present container it is
    "Optional.Present<" + rendering + ">": when [typeof] of the value is
    "object" or "string" the rendering is what [JSON.stringify] returns,
    interpolated, and if [JSON.stringify] throws it is the plain string
    conversion of the value instead; for every other value it is the plain
    string conversion directly.  So, given that the number 123 converts to
    "123" and that the string "123" serializes to itself between double
    quotes, [of(123).toString()] is "Optional.Present<123>",
    [of("123").toString()] is "Optional.Present<" + the quoted "123" + ">",
    and [empty().toString()] is "Optional.Empty". *)
Theorem toString_by_cases (U : Type)
  (JSON_stringify : JS.value -> M U (option string))
  (ToString : JS.value -> M U string)
  (this : OptionalValue) (w : world U) :
  (isEmpty this = true ->
   toString JSON_stringify ToString this w = (Normal "Optional.Empty", w))
  /\
  (isPresent this = true ->
   typeof (get this) = "object" \/ typeof (get this) = "string" ->
   (forall (json : option string) (w1 : world U),
       JSON_stringify (get this) w = (Normal json, w1) ->
       toString JSON_stringify ToString this w
       = (Normal ("Optional.Present<" ++ interpolate json ++ ">"), w1))
   /\
   (forall (x : JS.value) (w1 : world U) (s : string) (w2 : world U),
       JSON_stringify (get this) w = (Throw x, w1) ->
       ToString (get this) w1 = (Normal s, w2) ->
       toString JSON_stringify ToString this w
       = (Normal ("Optional.Present<" ++ s ++ ">"), w2)))
  /\
  (isPresent this = true ->
   typeof (get this) <> "object" -> typeof (get this) <> "string" ->
   forall (s : string) (w1 : world U),
     ToString (get this) w = (Normal s, w1) ->
     toString JSON_stringify ToString this w
     = (Normal ("Optional.Present<" ++ s ++ ">"), w1))
  /\
  ((forall w' : world U, ToString (VNumber 123) w' = (Normal "123", w')) ->
   (c <- OptionalValue.of_ (VNumber 123) ;;
    toString JSON_stringify ToString c) w
   = (Normal "Optional.Present<123>", allocate w))
  /\
  ((forall w' : world U,
       JSON_stringify (VString "123") w'
       = (Normal (Some (double_quote ++ "123" ++ double_quote)), w')) ->
   (c <- OptionalValue.of_ (VString "123") ;;
    toString JSON_stringify ToString c) w
   = (Normal ("Optional.Present<" ++ double_quote ++ "123" ++ double_quote ++ ">"),
      allocate w))
  /\
  (c <- OptionalValue.empty ;;
   toString JSON_stringify ToString c) w
  = (Normal "Optional.Empty", allocate w).
Proof.
  split; [| split; [| split; [| split; [| split]]]].
  - apply toString_empty.
  - intros Hp Ht. split.
    + intros json w1 Hj. apply toString_serialized; assumption.
    + intros x w1 s w2 Hj Hs.
      erewrite toString_fallback by eassumption.
      returns Hs. reflexivity.
  - intros Hp Ho Hs s w1 Hrun.
    rewrite toString_plain by assumption.
    returns Hrun. reflexivity.
  - intros Hnumber.
    erewrite bind_normal by (apply of_run_value; reflexivity).
    rewrite toString_plain by (reflexivity || discriminate).
    returns Hnumber. reflexivity.
  - intros Hstring.
    erewrite bind_normal by (apply of_run_value; reflexivity).
    rewrite (@toString_serialized U JSON_stringify ToString
               {| ref := next_ref w; value := VString "123" |} _ _ _
               eq_refl (or_intror eq_refl) (Hstring (allocate w))).
    reflexivity.
  - returns empty_run.
    apply toString_empty. reflexivity.
Qed.

Lemma toString_by_cases_witness :
  toString SampleHost.JSON_stringify SampleHost.ToString empty_0 start
  = (Normal "Optional.Empty", start)
  /\
  toString SampleHost.JSON_stringify SampleHost.ToString present_string_123 start
  = (Normal ("Optional.Present<" ++ double_quote ++ "123" ++ double_quote ++ ">"),
     start)
  /\
  toString SampleHost.JSON_stringify SampleHost.ToString (holding_object 0 1) start
  = (Normal "Optional.Present<[object Object]>", allocate start)
  /\
  toString SampleHost.JSON_stringify SampleHost.ToString present_123 start
  = (Normal "Optional.Present<123>", start)
  /\
  (c <- OptionalValue.of_ (VNumber 123) ;;
   toString SampleHost.JSON_stringify SampleHost.ToString c) start
  = (Normal "Optional.Present<123>", allocate start)
  /\
  (c <- OptionalValue.of_ (VString "123") ;;
   toString SampleHost.JSON_stringify SampleHost.ToString c) start
  = (Normal ("Optional.Present<" ++ double_quote ++ "123" ++ double_quote ++ ">"),
     allocate start).
Proof.
  split; [| split; [| split; [| split; [| split]]]].
  - apply (proj1 (toString_by_cases SampleHost.JSON_stringify SampleHost.ToString
                    empty_0 start)).
    reflexivity.
  - apply (proj1 (proj1 (proj2 (toString_by_cases SampleHost.JSON_stringify
                                  SampleHost.ToString present_string_123 start))
                    eq_refl (or_intror eq_refl))
             (Some (double_quote ++ "123" ++ double_quote)) start).
    reflexivity.
  - apply (proj2 (proj1 (proj2 (toString_by_cases SampleHost.JSON_stringify
                                  SampleHost.ToString (holding_object 0 1) start))
                    eq_refl (or_introl eq_refl))
             (VError 1 TypeError "Converting circular structure to JSON")
             (allocate start) "[object Object]" (allocate start));
      reflexivity.
  - refine (proj1 (proj2 (proj2 (toString_by_cases SampleHost.JSON_stringify
                                   SampleHost.ToString present_123 start)))
              eq_refl _ _ "123" start eq_refl);
      discriminate.
  - apply (proj1 (proj2 (proj2 (proj2 (toString_by_cases SampleHost.JSON_stringify
                                          SampleHost.ToString empty_0 start))))).
    intros w'. reflexivity.
  - apply (proj1 (proj2 (proj2 (proj2 (proj2 (toString_by_cases
             SampleHost.JSON_stringify SampleHost.ToString empty_0 start)))))).
    intros w'. reflexivity.
Defined.

(** C3, as the specification words it, fails on the literals: [toString] of
    an empty container is not "Container.Empty", and of [of(123)] it is not
    "Container.Present<123>". *)
Lemma toString_literal_counterexample :
  isEmpty empty_0 = true
  /\ fst (toString SampleHost.JSON_stringify SampleHost.ToString empty_0 start)
     <> Normal "Container.Empty"
  /\ fst (toString SampleHost.JSON_stringify SampleHost.ToString present_123 start)
     <> Normal "Container.Present<123>".
Proof.
  split; [reflexivity |]. split; discriminate.
Qed.

(** ** Beyond the claims: the rest of the class *)

(** *** What [===] is, as far as the class needs it *)

Lemma SFeqb_sym (f1 f2 : spec_float) : SFeqb f1 f2 = SFeqb f2 f1.
Proof.
  unfold SFeqb.
  destruct f1 as [s1 | s1 | | s1 m1 e1], f2 as [s2 | s2 | | s2 m2 e2];
    cbn; try reflexivity;
    try (destruct s1; reflexivity);
    try (destruct s2; reflexivity);
    try (destruct s1, s2; reflexivity).
  destruct s1, s2; try reflexivity;
    rewrite (Z.compare_antisym e1 e2);
    destruct (e1 ?= e2)%Z; cbn; try reflexivity;
    rewrite !Pos.compare_cont_spec; cbn;
    rewrite (Pos.compare_antisym m1 m2);
    destruct (m1 ?= m2)%positive; reflexivity.
Qed.

Lemma strict_equals_sym (a b : JS.value) : strict_equals a b = strict_equals b a.
Proof.
  destruct a, b; cbn; try reflexivity.
  - destruct b, b0; reflexivity.
  - rewrite !eqb_spec. apply SFeqb_sym.
  - apply String.eqb_sym.
  - apply Z.eqb_sym.
  - apply Nat.eqb_sym.
  - apply Nat.eqb_sym.
  - apply Nat.eqb_sym.
  - apply Nat.eqb_sym.
Qed.

Lemma strict_equals_refl (v : JS.value) : strict_equals v v = negb (is_NaN v).
Proof.
  destruct v; cbn; try reflexivity.
  - destruct b; reflexivity.
  - unfold is_nan. symmetry. apply negb_involutive.
  - apply String.eqb_refl.
  - apply Z.eqb_refl.
  - apply Nat.eqb_refl.
  - apply Nat.eqb_refl.
  - apply Nat.eqb_refl.
  - apply Nat.eqb_refl.
Qed.

Lemma strict_equals_marker (a b : JS.value) :
  strict_equals a b = true -> absence_marker a = absence_marker b.
Proof. destruct a, b; cbn; (discriminate || reflexivity). Qed.

Lemma present_value_not_marker (c : OptionalValue) :
  isPresent c = true -> absence_marker (get c) = false.
Proof.
  rewrite isPresent_marker. destruct (absence_marker (get c)); [discriminate | reflexivity].
Qed.

(** *** Presence *)

(** X1. A value counts as present exactly when it is neither [undefined]
    nor [null]; every other value, the falsy ones included, is present.
    On a container [isPresent()] and [isEmpty()] are each other's negation,
    and [isPresent()] says that very thing of the stored value. *)
Theorem presence_is_not_undefined_not_null (v : JS.value) (c : OptionalValue) :
  (OptionalValue.isPresent v = true <-> v <> VUndefined /\ v <> VNull)
  /\ (isPresent c = true <-> get c <> VUndefined /\ get c <> VNull)
  /\ isEmpty c = negb (isPresent c)
  /\ (isEmpty c = true <-> get c = VUndefined \/ get c = VNull).
Proof.
  assert (Hstatic : forall x : JS.value,
             OptionalValue.isPresent x = true <-> x <> VUndefined /\ x <> VNull).
  { intros x. rewrite static_isPresent_marker. split.
    - intros H. split; intros ->; discriminate H.
    - intros [Hu Hn]. destruct x; try reflexivity; contradiction. }
  split; [apply Hstatic |]. split; [apply Hstatic |]. split; [reflexivity |].
  rewrite isEmpty_marker. split.
  - destruct (get c); try discriminate; auto.
  - intros [-> | ->]; reflexivity.
Qed.

(** The falsy values are present: [0], [-0], [NaN], the empty string,
    [false] and [0n]. *)
Example falsy_values_are_present :
  OptionalValue.isPresent (VNumber 0) = true
  /\ OptionalValue.isPresent (VNumber (-0)) = true
  /\ OptionalValue.isPresent (VNumber (0 / 0)) = true
  /\ OptionalValue.isPresent (VString EmptyString) = true
  /\ OptionalValue.isPresent (VBoolean false) = true
  /\ OptionalValue.isPresent (VBigInt 0) = true.
Proof. repeat split. Qed.

(** *** [ifPresent] and [ifEmpty] *)

(** X2. [ifPresent] on a present container is one run of the consumer on
    the value: if the consumer returns, [ifPresent] returns the container
    itself; if the consumer throws, [ifPresent] throws the same value and
    the consumer's effects up to there stay.  On an empty container it
    returns the container itself and nothing of the consumer runs. *)
Theorem ifPresent_by_cases (U : Type) (this : OptionalValue)
  (consumer : JS.value -> M U unit) (w : world U) :
  (isPresent this = true ->
   forall (u : unit) (w1 : world U),
     consumer (get this) w = (Normal u, w1) ->
     ifPresent this consumer w = (Normal this, w1))
  /\
  (isPresent this = true ->
   forall (e : JS.value) (w1 : world U),
     consumer (get this) w = (Throw e, w1) ->
     ifPresent this consumer w = (Throw e, w1))
  /\
  (isEmpty this = true -> ifPresent this consumer w = (Normal this, w)).
Proof.
  split; [| split].
  - intros Hp u w1 Hrun. unfold ifPresent. rewrite Hp.
    returns Hrun. reflexivity.
  - intros Hp e w1 Hrun. unfold ifPresent. rewrite Hp.
    erewrite bind_throw by exact Hrun. reflexivity.
  - intros He. unfold ifPresent. branch He. reflexivity.
Qed.

Lemma ifPresent_by_cases_witness :
  ifPresent present_123 (counting (fun _ => tt)) start
  = (Normal present_123, {| next_ref := 1; ambient := 1 |})
  /\ ifPresent present_123 (fun _ => stopping) start
     = (Throw (VError 1 RangeError "Stop."), allocate start)
  /\ ifPresent empty_0 (counting (fun _ => tt)) start = (Normal empty_0, start).
Proof.
  split; [| split].
  - apply (proj1 (ifPresent_by_cases present_123 (counting (fun _ => tt)) start)
             eq_refl tt).
    reflexivity.
  - apply (proj1 (proj2 (ifPresent_by_cases present_123 (fun _ => stopping) start))
             eq_refl).
    reflexivity.
  - apply (proj2 (proj2 (ifPresent_by_cases empty_0 (counting (fun _ => tt)) start))).
    reflexivity.
Defined.

(** X3. [ifEmpty] on an empty container is one run of the consumer: if the
    consumer returns, [ifEmpty] returns the container itself; if it
    throws, [ifEmpty] throws the same value.  On a present container it
    returns the container itself and nothing of the consumer runs. *)
Theorem ifEmpty_by_cases (U : Type) (this : OptionalValue)
  (consumer : M U unit) (w : world U) :
  (isEmpty this = true ->
   forall (u : unit) (w1 : world U),
     consumer w = (Normal u, w1) ->
     ifEmpty this consumer w = (Normal this, w1))
  /\
  (isEmpty this = true ->
   forall (e : JS.value) (w1 : world U),
     consumer w = (Throw e, w1) ->
     ifEmpty this consumer w = (Throw e, w1))
  /\
  (isPresent this = true -> ifEmpty this consumer w = (Normal this, w)).
Proof.
  split; [| split].
  - intros He u w1 Hrun. unfold ifEmpty. rewrite He.
    returns Hrun. reflexivity.
  - intros He e w1 Hrun. unfold ifEmpty. rewrite He.
    erewrite bind_throw by exact Hrun. reflexivity.
  - intros Hp. unfold ifEmpty. branch Hp. reflexivity.
Qed.

Lemma ifEmpty_by_cases_witness :
  ifEmpty empty_0 (counting_supplier tt) start
  = (Normal empty_0, {| next_ref := 1; ambient := 1 |})
  /\ ifEmpty empty_0 stopping start
     = (Throw (VError 1 RangeError "Stop."), allocate start)
  /\ ifEmpty present_123 (counting_supplier tt) start = (Normal present_123, start).
Proof.
  split; [| split].
  - apply (proj1 (ifEmpty_by_cases empty_0 (counting_supplier tt) start) eq_refl tt).
    reflexivity.
  - apply (proj1 (proj2 (ifEmpty_by_cases empty_0 stopping start)) eq_refl).
    reflexivity.
  - apply (proj2 (proj2 (ifEmpty_by_cases present_123 (counting_supplier tt) start))).
    reflexivity.
Defined.

(** X4. In [optional.ifPresent(onValue).ifEmpty(onNone)] exactly one of
    the two consumers runs: on a present container the chain is
    [ifPresent(onValue)] alone, on an empty one it is [ifEmpty(onNone)]
    alone. *)
Theorem ifPresent_ifEmpty_run_one (U : Type) (this : OptionalValue)
  (onValue : JS.value -> M U unit) (onNone : M U unit) (w : world U) :
  (isPresent this = true ->
   (r <- ifPresent this onValue ;; ifEmpty r onNone) w
   = ifPresent this onValue w)
  /\
  (isEmpty this = true ->
   (r <- ifPresent this onValue ;; ifEmpty r onNone) w
   = ifEmpty this onNone w).
Proof.
  split.
  - intros Hp. unfold ifPresent. rewrite Hp. cbn. unfold M_bind.
    destruct (onValue (value this) w) as [[u | e] w1]; [| reflexivity].
    cbn. unfold ifEmpty. branch Hp. reflexivity.
  - intros He. unfold ifPresent. branch He. reflexivity.
Qed.

Lemma ifPresent_ifEmpty_run_one_witness :
  (r <- ifPresent present_123 (counting (fun _ => tt)) ;;
   ifEmpty r (counting_supplier tt)) start
  = (Normal present_123, {| next_ref := 1; ambient := 1 |})
  /\
  (r <- ifPresent empty_0 (counting (fun _ => tt)) ;;
   ifEmpty r (counting_supplier tt)) start
  = (Normal empty_0, {| next_ref := 1; ambient := 1 |}).
Proof.
  split.
  - rewrite (proj1 (ifPresent_ifEmpty_run_one present_123 (counting (fun _ => tt))
                      (counting_supplier tt) start) eq_refl).
    reflexivity.
  - rewrite (proj2 (ifPresent_ifEmpty_run_one empty_0 (counting (fun _ => tt))
                      (counting_supplier tt) start) eq_refl).
    reflexivity.
Defined.

(** *** [flatMap], and how [map] and [filter] chain *)

(** X5. [flatMap] on a present container is one run of the mapper on the
    value, and the container the mapper returns is returned as it is, not
    wrapped again; if the mapper throws, [flatMap] throws the same value.
    On an empty container it returns the container itself and nothing of
    the mapper runs.  So [flatMap] returns a container storing [undefined]
    only if it was called on one or the mapper returned one. *)
Theorem flatMap_by_cases (U : Type) (this : OptionalValue)
  (mapper : JS.value -> M U OptionalValue) (w : world U) :
  (isPresent this = true -> flatMap this mapper w = mapper (get this) w)
  /\
  (isEmpty this = true -> flatMap this mapper w = (Normal this, w))
  /\
  (forall (r : OptionalValue) (w' : world U),
      flatMap this mapper w = (Normal r, w') ->
      get this <> VUndefined ->
      (forall (v : JS.value) (w0 w1 : world U) (r0 : OptionalValue),
          mapper v w0 = (Normal r0, w1) -> get r0 <> VUndefined) ->
      get r <> VUndefined).
Proof.
  split; [| split].
  - intros Hp. unfold flatMap. branch Hp. reflexivity.
  - intros He. unfold flatMap. rewrite He. reflexivity.
  - intros r w' Hrun Hthis Hmapper. unfold flatMap in Hrun.
    destruct (isEmpty this).
    + injection Hrun as <- _. exact Hthis.
    + exact (Hmapper _ _ _ _ Hrun).
Qed.

Lemma flatMap_by_cases_witness :
  flatMap present_123 (wrapping (counting type_of)) start
  = wrapping (counting type_of) (VNumber 123) start
  /\ flatMap empty_0 (wrapping (counting type_of)) start = (Normal empty_0, start)
  /\ get {| ref := 1; value := VString "number" |} <> VUndefined.
Proof.
  split; [| split].
  - apply (proj1 (flatMap_by_cases present_123 (wrapping (counting type_of)) start)).
    reflexivity.
  - apply (proj1 (proj2 (flatMap_by_cases empty_0 (wrapping (counting type_of)) start))).
    reflexivity.
  - apply (proj2 (proj2 (flatMap_by_cases present_123 (wrapping (counting type_of)) start))
             {| ref := 1; value := VString "number" |}
             {| next_ref := 2; ambient := 1 |}).
    + reflexivity.
    + discriminate.
    + intros v w0 w1 r0 Hrun. cbv in Hrun. injection Hrun as <- _. discriminate.
Defined.

(** X6. [map(mapper)] is [flatMap((value) => Optional(mapper(value)))]: the
    same result, the same effects, the same exceptions.  The presence test
    [map] makes before calling [of] changes nothing, since [of] makes it
    again. *)
Theorem map_is_flatMap_of (U : Type) (this : OptionalValue)
  (mapper : JS.value -> M U JS.value) (w : world U) :
  map this mapper w = flatMap this (wrapping mapper) w.
Proof.
  unfold map, flatMap, wrapping, Optional.
  destruct (isEmpty this); [reflexivity |].
  cbn. unfold M_bind.
  destruct (mapper (value this) w) as [[u | e] w1]; [| reflexivity].
  unfold OptionalValue.of_.
  destruct (OptionalValue.isPresent u); reflexivity.
Qed.

(** X7. Chaining [flatMap] is associative:
    [optional.flatMap(f).flatMap(g)] is
    [optional.flatMap((value) => f(value).flatMap(g))], results, effects and
    exceptions alike. *)
Theorem flatMap_assoc (U : Type) (this : OptionalValue)
  (f g : JS.value -> M U OptionalValue) (w : world U) :
  (r <- flatMap this f ;; flatMap r g) w = flatMap this (and_then f g) w.
Proof.
  unfold and_then. cbn. unfold M_bind.
  unfold flatMap at 1 3.
  destruct (isEmpty this) eqn:He.
  - cbn. unfold flatMap. rewrite He. reflexivity.
  - reflexivity.
Qed.

(** X8. Wrapping a value that is no absence marker and calling [flatMap]
    on the result is calling the mapper on the value, in the world where
    the container has been created. *)
Theorem of_then_flatMap (U : Type) (v : JS.value)
  (mapper : JS.value -> M U OptionalValue) (w : world U) :
  absence_marker v = false ->
  (c <- Optional v ;; flatMap c mapper) w = mapper v (allocate w).
Proof.
  intros Hv. unfold Optional.
  erewrite bind_normal by (apply of_run_value; exact Hv).
  unfold flatMap, isEmpty. cbn. rewrite static_isPresent_marker, Hv. reflexivity.
Qed.

Lemma of_then_flatMap_witness :
  (c <- Optional (VNumber 123) ;; flatMap c (wrapping (counting type_of))) start
  = wrapping (counting type_of) (VNumber 123) (allocate start).
Proof.
  apply (of_then_flatMap (VNumber 123) (wrapping (counting type_of)) start).
  reflexivity.
Defined.

(** X9. [optional.flatMap(Optional)] gives back a container with the same
    stored value and the same presence: the container itself when it is
    empty, a new container around the same value when it is present. *)
Theorem flatMap_of (U : Type) (this : OptionalValue) (w : world U) :
  (isEmpty this = true -> flatMap this Optional w = (Normal this, w))
  /\
  (isPresent this = true ->
   flatMap this Optional w
   = (Normal {| ref := next_ref w; value := get this |}, allocate w))
  /\
  (exists r w',
      flatMap this Optional w = (Normal r, w')
      /\ get r = get this /\ isPresent r = isPresent this).
Proof.
  assert (Hempty : isEmpty this = true -> flatMap this Optional w = (Normal this, w)).
  { intros He. unfold flatMap. rewrite He. reflexivity. }
  assert (Hpresent : isPresent this = true ->
                     flatMap this Optional w
                     = (Normal {| ref := next_ref w; value := get this |}, allocate w)).
  { intros Hp. unfold flatMap. branch Hp. unfold Optional.
    apply of_run_value. apply present_value_not_marker. exact Hp. }
  split; [exact Hempty |]. split; [exact Hpresent |].
  destruct (isPresent this) eqn:Hp.
  - eexists _, _. split; [apply Hpresent; reflexivity |].
    split; [reflexivity |]. exact Hp.
  - eexists _, _. split.
    + apply Hempty. rewrite isEmpty_isPresent, Hp. reflexivity.
    + split; [reflexivity | exact Hp].
Qed.

Lemma flatMap_of_witness :
  flatMap empty_0 Optional start = (Normal empty_0, start)
  /\ flatMap present_123 Optional start
     = (Normal {| ref := 1; value := VNumber 123 |}, allocate start).
Proof.
  split.
  - apply (proj1 (flatMap_of empty_0 start)). reflexivity.
  - apply (proj1 (proj2 (flatMap_of present_123 start))). reflexivity.
Defined.

(** X10. Filtering twice is filtering once by both predicates, the second
    asked only when the first answers [true]:
    [optional.filter(p).filter(q)] is
    [optional.filter((value) => p(value) && q(value))], results, effects and
    exceptions alike. *)
Theorem filter_filter (U : Type) (this : OptionalValue)
  (p q : JS.value -> M U bool) (w : world U) :
  (r <- filter this p ;; filter r q) w = filter this (both p q) w.
Proof.
  unfold both. cbn. unfold M_bind.
  unfold filter at 1 3.
  destruct (isEmpty this) eqn:He.
  - cbn. unfold filter. rewrite He. reflexivity.
  - cbn. unfold M_bind.
    destruct (p (value this) w) as [[[|] | e] w1]; cbn.
    + unfold filter. rewrite He. reflexivity.
    + reflexivity.
    + reflexivity.
Qed.

(** X11. No method hands an absence marker to a callback: two callbacks
    that do the same on every value that is neither [undefined] nor [null]
    are interchangeable in [map], [filter], [flatMap] and [ifPresent],
    whatever they do on the two markers. *)
Theorem callbacks_never_get_a_marker (U : Type) (this : OptionalValue)
  (w : world U) :
  (forall f g : JS.value -> M U JS.value,
      (forall (v : JS.value) (w0 : world U),
          absence_marker v = false -> f v w0 = g v w0) ->
      map this f w = map this g w)
  /\
  (forall f g : JS.value -> M U bool,
      (forall (v : JS.value) (w0 : world U),
          absence_marker v = false -> f v w0 = g v w0) ->
      filter this f w = filter this g w)
  /\
  (forall f g : JS.value -> M U OptionalValue,
      (forall (v : JS.value) (w0 : world U),
          absence_marker v = false -> f v w0 = g v w0) ->
      flatMap this f w = flatMap this g w)
  /\
  (forall f g : JS.value -> M U unit,
      (forall (v : JS.value) (w0 : world U),
          absence_marker v = false -> f v w0 = g v w0) ->
      ifPresent this f w = ifPresent this g w).
Proof.
  destruct (isPresent this) eqn:Hp.
  - pose proof (present_value_not_marker _ Hp) as Hv. unfold get in Hv.
    repeat split; intros f g Hfg;
      unfold map, filter, flatMap, ifPresent;
      rewrite ?Hp, ?(present_not_empty _ Hp);
      cbn; unfold M_bind; rewrite ?(Hfg _ w Hv); reflexivity.
  - repeat split; intros f g Hfg;
      unfold map, filter, flatMap, ifPresent;
      rewrite ?Hp, ?isEmpty_isPresent, ?Hp; reflexivity.
Qed.

Lemma callbacks_never_get_a_marker_witness :
  map present_123 (refusing_markers (counting type_of)) start
  = map present_123 (counting type_of) start
  /\ filter empty_0 (refusing_markers (counting greater_than_zero)) start
     = filter empty_0 (counting greater_than_zero) start.
Proof.
  split.
  - apply (proj1 (callbacks_never_get_a_marker present_123 start)).
    intros v w0 Hv. unfold refusing_markers. rewrite Hv. reflexivity.
  - apply (proj1 (proj2 (callbacks_never_get_a_marker empty_0 start))).
    intros v w0 Hv. unfold refusing_markers. rewrite Hv. reflexivity.
Defined.

(** *** [contains] and [equals] *)

(** X12. [contains(value)] is [true] exactly when the container is present
    and its value is [===] to the argument.  It is [false] on every empty
    container, and [false] for [undefined] and for [null] on every
    container: an empty container does not contain [null]. *)
Theorem contains_by_cases (this : OptionalValue) (v : JS.value) :
  (contains this v = true <->
   isPresent this = true /\ strict_equals (get this) v = true)
  /\ (isEmpty this = true -> contains this v = false)
  /\ (absence_marker v = true -> contains this v = false).
Proof.
  split; [| split].
  - unfold contains. apply andb_true_iff.
  - intros He. unfold contains. branch He. reflexivity.
  - intros Hv. unfold contains.
    destruct (isPresent this) eqn:Hp; [| reflexivity].
    destruct (strict_equals (value this) v) eqn:Heq; [| reflexivity].
    apply strict_equals_marker in Heq.
    pose proof (present_value_not_marker _ Hp) as Hnot. unfold get in Hnot.
    congruence.
Qed.

Lemma contains_by_cases_witness :
  contains empty_0 VNull = false
  /\ contains present_123 VUndefined = false.
Proof.
  split.
  - apply (proj1 (proj2 (contains_by_cases empty_0 VNull))). reflexivity.
  - apply (proj2 (proj2 (contains_by_cases present_123 VUndefined))). reflexivity.
Defined.

(** X13. Without a comparator, [equals(other)] is [contains] of the other
    container's stored value, except between two empty containers, where
    [equals] answers [true] and [contains] answers [false]. *)
Theorem equals_is_contains_or_both_empty (U : Type) (this other : OptionalValue)
  (w : world U) :
  equals this other None w
  = (Normal (contains this (get other) || (isEmpty this && isEmpty other)), w).
Proof.
  unfold equals, contains.
  destruct (isPresent this) eqn:Hp.
  - rewrite (present_not_empty _ Hp). cbn.
    destruct (isEmpty other) eqn:Ho; cbn.
    + rewrite isEmpty_marker in Ho.
      destruct (strict_equals (value this) (get other)) eqn:Heq; [| reflexivity].
      apply strict_equals_marker in Heq.
      pose proof (present_value_not_marker _ Hp) as Hnot. unfold get in *.
      congruence.
    + rewrite orb_false_r. reflexivity.
  - rewrite isEmpty_isPresent, Hp. cbn.
    destruct (isEmpty other); reflexivity.
Qed.

(** X14. Without a comparator [equals] is symmetric: [a.equals(b)] and
    [b.equals(a)] answer the same. *)
Theorem equals_sym (U : Type) (a b : OptionalValue) (w : world U) :
  equals a b None w = equals b a None w.
Proof.
  unfold equals.
  rewrite (andb_comm (isEmpty a)), (orb_comm (isEmpty a)).
  rewrite (strict_equals_sym (value a)). reflexivity.
Qed.

(** X15. Without a comparator a container equals itself, unless it holds
    the number NaN: [x.equals(x)] is [true] for an empty container and for
    every present one whose value is not NaN, and [false] for one holding
    NaN. *)
Theorem equals_refl_unless_NaN (U : Type) (this : OptionalValue) (w : world U) :
  equals this this None w = (Normal (negb (is_NaN (get this))), w).
Proof.
  unfold equals. rewrite andb_diag, orb_diag.
  destruct (isEmpty this) eqn:He.
  - rewrite isEmpty_marker in He. unfold get in *.
    destruct (value this); try discriminate; reflexivity.
  - rewrite strict_equals_refl. reflexivity.
Qed.

(** *** What the extraction methods hand out *)

(** X16. The methods that return the value never hand out [undefined] or
    [null] on their own: [orElse] returns an absence marker only if the
    fallback is one; [orElseGet] only if the container is empty and the
    supplier returned one; and whatever [orElseThrow] returns is the stored
    value of a present container, in an unchanged world. *)
Theorem extraction_gives_no_marker (U : Type) (this : OptionalValue)
  (w : world U) :
  (forall fallback : JS.value,
      absence_marker fallback = false ->
      absence_marker (orElse this fallback) = false)
  /\
  (forall (supplier : M U JS.value) (v : JS.value) (w' : world U),
      orElseGet this supplier w = (Normal v, w') ->
      absence_marker v = true ->
      isEmpty this = true /\ supplier w = (Normal v, w'))
  /\
  (forall (arg : MessageOrErrorSupplier) (v : JS.value) (w' : world U),
      orElseThrow this arg w = (Normal v, w') ->
      isPresent this = true /\ v = get this /\ w' = w
      /\ absence_marker v = false).
Proof.
  split; [| split].
  - intros fallback Hf. unfold orElse.
    destruct (isPresent this) eqn:Hp; [| exact Hf].
    apply (present_value_not_marker _ Hp).
  - intros supplier v w' Hrun Hv. unfold orElseGet in Hrun.
    destruct (isPresent this) eqn:Hp.
    + injection Hrun as <- _.
      pose proof (present_value_not_marker _ Hp) as Hnot. unfold get in Hnot.
      congruence.
    + split; [rewrite isEmpty_isPresent, Hp; reflexivity | exact Hrun].
  - intros arg v w' Hrun. unfold orElseThrow in Hrun.
    destruct (isPresent this) eqn:Hp.
    + injection Hrun as <- <-.
      repeat split. apply (present_value_not_marker _ Hp).
    + cbn in Hrun. unfold M_bind in Hrun.
      destruct (parseError arg w) as [[e | e] w1]; discriminate Hrun.
Qed.

Lemma extraction_gives_no_marker_witness :
  absence_marker (orElse empty_0 (VNumber 456)) = false
  /\
  (isPresent present_123 = true /\ VNumber 123 = get present_123 /\ start = start
   /\ absence_marker (VNumber 123) = false).
Proof.
  split.
  - apply (proj1 (extraction_gives_no_marker empty_0 start)). reflexivity.
  - apply (proj2 (proj2 (extraction_gives_no_marker present_123 start))
             Omitted).
    reflexivity.
Defined.

(** *** [toString], whatever the host does *)

(** X17. [toString] throws only what the plain string conversion of the
    stored value throws: an exception of [JSON.stringify] never comes out
    of it.  So with a string conversion that never throws, [toString]
    always returns, whatever [JSON.stringify] does. *)
Theorem toString_throws_only_from_ToString (U : Type)
  (JSON_stringify : JS.value -> M U (option string))
  (ToString : JS.value -> M U string)
  (this : OptionalValue) (w : world U) :
  (forall (e : JS.value) (w' : world U),
      toString JSON_stringify ToString this w = (Throw e, w') ->
      isPresent this = true
      /\ exists w1, ToString (get this) w1 = (Throw e, w'))
  /\
  ((forall (v : JS.value) (w0 : world U),
       exists s w1, ToString v w0 = (Normal s, w1)) ->
   exists s w', toString JSON_stringify ToString this w = (Normal s, w')).
Proof.
  assert (Hthrow : forall (e : JS.value) (w' : world U),
             toString JSON_stringify ToString this w = (Throw e, w') ->
             isPresent this = true
             /\ exists w1, ToString (get this) w1 = (Throw e, w')).
  { intros e w'. unfold toString, get.
    destruct (isPresent this); [| discriminate].
    cbv zeta.
    destruct ((typeof (value this) =? "object") || (typeof (value this) =? "string"));
      cbn; unfold M_catch, M_bind.
    - destruct (JSON_stringify (value this) w) as [[json | x] w1]; [discriminate |].
      destruct (ToString (value this) w1) as [[s | y] w2] eqn:Hs; [discriminate |].
      intros [= <- <-]. split; [reflexivity |]. exists w1. exact Hs.
    - destruct (ToString (value this) w) as [[s | y] w2] eqn:Hs; [discriminate |].
      intros [= <- <-]. split; [reflexivity |]. exists w. exact Hs. }
  split; [exact Hthrow |].
  intros Htotal.
  destruct (toString JSON_stringify ToString this w) as [[s | e] w'] eqn:Hrun.
  - exists s, w'. reflexivity.
  - destruct (Hthrow e w' eq_refl) as (_ & w1 & Hs).
    destruct (Htotal (get this) w1) as (s & w2 & Hs').
    rewrite Hs in Hs'. discriminate Hs'.
Qed.

Lemma toString_throws_only_from_ToString_witness :
  isPresent {| ref := 0; value := VSymbol 5 |} = true
  /\ exists w1,
       SampleHost.ToString (get {| ref := 0; value := VSymbol 5 |}) w1
       = (Throw (VError 1 TypeError "Cannot convert a Symbol value to a string"),
          allocate start).
Proof.
  apply (proj1 (toString_throws_only_from_ToString
                  SampleHost.JSON_stringify SampleHost.ToString
                  {| ref := 0; value := VSymbol 5 |} start)).
  reflexivity.
Defined.

(** X18. What [toString] returns tells an empty container from a present
    one: on an empty container it is "Optional.Empty" and the world is as
    it was; on a present one it is "Optional.Present<" + something + ">",
    which is never "Optional.Empty". *)
Theorem toString_tells_empty_from_present (U : Type)
  (JSON_stringify : JS.value -> M U (option string))
  (ToString : JS.value -> M U string)
  (this : OptionalValue) (w : world U) (s : string) (w' : world U) :
  toString JSON_stringify ToString this w = (Normal s, w') ->
  (isEmpty this = true -> s = "Optional.Empty" /\ w' = w)
  /\ (isPresent this = true ->
      exists rendering, s = "Optional.Present<" ++ rendering ++ ">")
  /\ (s = "Optional.Empty" <-> isEmpty this = true).
Proof.
  intros Hrun.
  assert (Hempty : isEmpty this = true -> s = "Optional.Empty" /\ w' = w).
  { intros He. rewrite (toString_empty JSON_stringify ToString _ w He) in Hrun.
    injection Hrun as <- <-. split; reflexivity. }
  assert (Hpresent : isPresent this = true ->
                     exists rendering, s = "Optional.Present<" ++ rendering ++ ">").
  { intros Hp. unfold toString in Hrun. rewrite Hp in Hrun. cbv zeta in Hrun.
    destruct ((typeof (value this) =? "object") || (typeof (value this) =? "string"));
      cbn in Hrun; unfold M_catch, M_bind in Hrun.
    - destruct (JSON_stringify (value this) w) as [[json | x] w1].
      + injection Hrun as <- _. eexists. reflexivity.
      + destruct (ToString (value this) w1) as [[r | y] w2]; [| discriminate].
        injection Hrun as <- _. eexists. reflexivity.
    - destruct (ToString (value this) w) as [[r | y] w2]; [| discriminate].
      injection Hrun as <- _. eexists. reflexivity. }
  split; [exact Hempty |]. split; [exact Hpresent |].
  split.
  - intros Hs. rewrite isEmpty_isPresent.
    destruct (isPresent this) eqn:Hp; [| reflexivity].
    destruct (Hpresent eq_refl) as (rendering & Hr).
    rewrite Hs in Hr. discriminate Hr.
  - intros He. apply (Hempty He).
Qed.

Lemma toString_tells_empty_from_present_witness :
  ((isEmpty empty_0 = true -> "Optional.Empty" = "Optional.Empty" /\ start = start)
   /\ (isPresent empty_0 = true ->
       exists rendering, "Optional.Empty" = "Optional.Present<" ++ rendering ++ ">")
   /\ ("Optional.Empty" = "Optional.Empty" <-> isEmpty empty_0 = true))
  /\
  ((isEmpty present_123 = true ->
    "Optional.Present<123>" = "Optional.Empty" /\ start = start)
   /\ (isPresent present_123 = true ->
       exists rendering,
         "Optional.Present<123>" = "Optional.Present<" ++ rendering ++ ">")
   /\ ("Optional.Present<123>" = "Optional.Empty" <-> isEmpty present_123 = true)).
Proof.
  split.
  - apply (toString_tells_empty_from_present
             SampleHost.JSON_stringify SampleHost.ToString empty_0 start).
    reflexivity.
  - apply (toString_tells_empty_from_present
             SampleHost.JSON_stringify SampleHost.ToString present_123 start).
    reflexivity.
Defined.
